(** * cura/BackendPlugin.py: the engine-plugin process supervisor

    A shallow embedding of [BackendPlugin] (the class that launches, tracks
    and terminates the external engine-plugin server) together with the
    properties of its life cycle.

    The object's fields are a record; the collaborators the methods talk to
    (the logger, the message sink and the [subprocess] primitives) are a
    second record, the [World], in which every call is recorded.  Methods
    run in a small state-and-exception monad in which, as in Python, the
    effects made before an exception is raised are kept. *)

From Stdlib Require Import ZArith List String Ascii Bool Lia DecimalString.
From Stdlib Require DecimalPos DecimalZ.
Import ListNotations.
Local Open Scope string_scope.

(** ** Python exceptions *)

Module Py.

(** The exception classes that matter to [BackendPlugin]: the ones its
    [except] clauses name, and representatives of what the [subprocess]
    primitives raise besides. *)
Inductive ExcClass : Type :=
| BaseException
| KeyboardInterrupt
| Exception
| AttributeError
| IndexError
| TypeError
| ValueError
| OSError
| BlockingIOError
| ChildProcessError
| FileNotFoundError
| PermissionError
| ProcessLookupError.

Definition eqb (c d : ExcClass) : bool :=
  match c, d with
  | BaseException, BaseException
  | KeyboardInterrupt, KeyboardInterrupt
  | Exception, Exception
  | AttributeError, AttributeError
  | IndexError, IndexError
  | TypeError, TypeError
  | ValueError, ValueError
  | OSError, OSError
  | BlockingIOError, BlockingIOError
  | ChildProcessError, ChildProcessError
  | FileNotFoundError, FileNotFoundError
  | PermissionError, PermissionError
  | ProcessLookupError, ProcessLookupError => true
  | _, _ => false
  end.

(** Method resolution order of each class: the class itself followed by
    its bases, as in the built-in hierarchy. *)
Definition mro (c : ExcClass) : list ExcClass :=
  match c with
  | BaseException => [BaseException]
  | KeyboardInterrupt => [KeyboardInterrupt; BaseException]
  | Exception => [Exception; BaseException]
  | AttributeError => [AttributeError; Exception; BaseException]
  | IndexError => [IndexError; Exception; BaseException]
  | TypeError => [TypeError; Exception; BaseException]
  | ValueError => [ValueError; Exception; BaseException]
  | OSError => [OSError; Exception; BaseException]
  | BlockingIOError => [BlockingIOError; OSError; Exception; BaseException]
  | ChildProcessError => [ChildProcessError; OSError; Exception; BaseException]
  | FileNotFoundError => [FileNotFoundError; OSError; Exception; BaseException]
  | PermissionError => [PermissionError; OSError; Exception; BaseException]
  | ProcessLookupError => [ProcessLookupError; OSError; Exception; BaseException]
  end.

(** [issubclass c d]: an exception of class [c] is caught by [except d]. *)
Definition issubclass (c d : ExcClass) : bool :=
  existsb (eqb d) (mro c).

(** [str(n)] for an [int]. *)
Definition str (n : Z) : string := NilZero.string_of_int (Z.to_int n).

(** The newline character of a [\n] escape. *)
Definition nl : string := String (ascii_of_nat 10) EmptyString.

(** [x in l] for a list of strings. *)
Definition contains (x : string) (l : list string) : bool :=
  existsb (String.eqb x) l.

(** [repr] of a [str], its characters read as code points below 256: the
    quote is the single one unless the string holds single quotes and no
    double quote; the backslash and the chosen quote are escaped, tab,
    newline and carriage return are written [\t], [\n], [\r], and the
    other characters that are not printable as [\xhh]. *)
Definition single_quote : ascii := ascii_of_nat 39.

Definition double_quote : ascii := ascii_of_nat 34.

Definition backslash : ascii := ascii_of_nat 92.

Fixpoint has_char (c : ascii) (x : string) : bool :=
  match x with
  | EmptyString => false
  | String d x' => Ascii.eqb c d || has_char c x'
  end.

Definition repr_quote (x : string) : ascii :=
  if has_char single_quote x && negb (has_char double_quote x)
  then double_quote else single_quote.

Definition hex_digit (n : nat) : ascii :=
  match n with
  | 0 => "0" | 1 => "1" | 2 => "2" | 3 => "3" | 4 => "4" | 5 => "5"
  | 6 => "6" | 7 => "7" | 8 => "8" | 9 => "9" | 10 => "a" | 11 => "b"
  | 12 => "c" | 13 => "d" | 14 => "e" | _ => "f"
  end%char.

Definition escaped (c : ascii) : string := String backslash (String c EmptyString).

Definition hex_escape (n : nat) : string :=
  String backslash
    (String "x" (String (hex_digit (n / 16)) (String (hex_digit (n mod 16)) EmptyString))).

Definition repr_char (quote c : ascii) : string :=
  let n := nat_of_ascii c in
  if Ascii.eqb c backslash || Ascii.eqb c quote then escaped c
  else if Nat.eqb n 9 then escaped "t"
  else if Nat.eqb n 10 then escaped "n"
  else if Nat.eqb n 13 then escaped "r"
  else if Nat.ltb n 32 || Nat.eqb n 127 then hex_escape n
  else if Nat.ltb n 127 then String c EmptyString
  else if Nat.leb n 160 || Nat.eqb n 173 then hex_escape n
  else String c EmptyString.

Fixpoint repr_chars (quote : ascii) (x : string) : string :=
  match x with
  | EmptyString => EmptyString
  | String c x' => repr_char quote c ++ repr_chars quote x'
  end.

Definition repr (x : string) : string :=
  String (repr_quote x) (repr_chars (repr_quote x) x)
  ++ String (repr_quote x) EmptyString.

(** [str(l)] for a list of strings, as an f-string prints it. *)
Definition str_list (l : list string) : string :=
  "[" ++ String.concat ", " (map repr l) ++ "]".

End Py.

(** ** Collaborators *)

(** [UM.Message.MessageType]. *)
Inductive MessageType : Type := POSITIVE | NEUTRAL | WARNING | ERROR.

(** A message handed to the message sink by [Message(...).show()]. *)
Record Message : Type := mkMessage {
  msg_text : string;
  msg_title : string;
  msg_type : MessageType
}.

(** A line written through [UM.Logger]: [Logger.log] and [Logger.info]
    write the text alone, [Logger.logException] adds the stack trace of the
    exception being handled. *)
Record LogEntry : Type := mkLogEntry {
  log_level : string;
  log_trace : bool;
  log_text : string
}.

(** The [subprocess.Popen] object.  [returncode] is the attribute of the
    same name: [None] until the exit status has been collected. *)
Record Popen : Type := mkPopen {
  pid : positive;
  args : list string;
  returncode : option Z
}.

(** Calls made to the process primitives. *)
Inductive PrimCall : Type :=
| CallPopen (argv : list string)
| CallTerminate (p : positive)
| CallKill (p : positive)
| CallWait (p : positive).

Record World : Type := mkWorld {
  log : list LogEntry;
  notifications : list Message;
  calls : list PrimCall
}.

Definition empty_world : World := mkWorld [] [] [].

(** What the platform answers to one call of a primitive.  For the spawn
    this is the outcome of the whole expression [subprocess.Popen(command,
    stdin = None, creationflags = subprocess.CREATE_NO_WINDOW)].  Its
    arguments are evaluated first: where the module [subprocess] has no
    attribute [CREATE_NO_WINDOW] ([NoWindowFlag]) this raises
    [AttributeError] and [Popen] is not called.  Otherwise [Popen] is
    called, and gives a process ([SpawnOk]) or raises ([SpawnRaise]). *)
Inductive SpawnOutcome : Type :=
| SpawnOk (p : positive)
| SpawnRaise (e : Py.ExcClass)
| NoWindowFlag.

Inductive TermOutcome : Type :=
| TermOk
| TermRaise (e : Py.ExcClass).

(** [WaitRaise e]: the wait raised [e] and no exit status was collected.
    [WaitInterrupted rc]: the wait was interrupted from the keyboard;
    [Popen.wait] then waits once more for a short time, which may collect
    the exit status ([rc]), and raises the [KeyboardInterrupt] again. *)
Inductive WaitOutcome : Type :=
| WaitOk (rc : Z)
| WaitRaise (e : Py.ExcClass)
| WaitInterrupted (rc : option Z).

(** The host framework: the translation catalogue and the rendering of a
    list of strings inside an f-string. *)
Record Host : Type := mkHost {
  i18nc : string -> string -> string;
  str_of_list : list string -> string
}.

(** ** The object *)

Record BackendPlugin : Type := mkBackendPlugin {
  plugin_id : string;
  port : Z;
  plugin_address : string;
  plugin_command : option (list string);
  process : option Popen;
  is_running : bool;
  supported_slots : list Z
}.

(** [__init__]; the identifier is the field of the [PluginObject] base. *)
Definition init (id : string) : BackendPlugin :=
  {| plugin_id := id;
     port := 0;
     plugin_address := "127.0.0.1";
     plugin_command := None;
     process := None;
     is_running := false;
     supported_slots := [] |}.

Definition with_port (p : Z) (s : BackendPlugin) : BackendPlugin :=
  {| plugin_id := plugin_id s;
     port := p;
     plugin_address := plugin_address s;
     plugin_command := plugin_command s;
     process := process s;
     is_running := is_running s;
     supported_slots := supported_slots s |}.

Definition with_process (h : option Popen) (s : BackendPlugin) : BackendPlugin :=
  {| plugin_id := plugin_id s;
     port := port s;
     plugin_address := plugin_address s;
     plugin_command := plugin_command s;
     process := h;
     is_running := is_running s;
     supported_slots := supported_slots s |}.

Definition with_is_running (b : bool) (s : BackendPlugin) : BackendPlugin :=
  {| plugin_id := plugin_id s;
     port := port s;
     plugin_address := plugin_address s;
     plugin_command := plugin_command s;
     process := process s;
     is_running := b;
     supported_slots := supported_slots s |}.

(** ** The monad of method bodies *)

Inductive Result (A : Type) : Type :=
| Returned (a : A)
| Raised (e : Py.ExcClass).
Arguments Returned {A} a.
Arguments Raised {A} e.

Definition St : Type := (BackendPlugin * World)%type.

Definition M (A : Type) : Type := St -> St * Result A.

Definition ret {A} (a : A) : M A := fun st => (st, Returned a).

Definition raise {A} (e : Py.ExcClass) : M A := fun st => (st, Raised e).

Definition bind {A B} (m : M A) (k : A -> M B) : M B :=
  fun st =>
    match m st with
    | (st', Returned a) => k a st'
    | (st', Raised e) => (st', Raised e)
    end.

Declare Scope py_scope.
Delimit Scope py_scope with py.
Notation "x <- m ;; k" := (bind m (fun x => k))
  (at level 61, m at next level, right associativity) : py_scope.
Notation "m ;; k" := (bind m (fun _ => k))
  (at level 61, right associativity) : py_scope.
Local Open Scope py_scope.

(** [try: body except c1: h1 except c2: h2 ...]: the first clause whose
    class the raised exception is an instance of runs; with none, the
    exception goes on to the caller. *)
Definition try_except {A} (body : M A) (handlers : list (Py.ExcClass * M A)) : M A :=
  fun st =>
    match body st with
    | (st', Returned a) => (st', Returned a)
    | (st', Raised e) =>
        match find (fun h => Py.issubclass e (fst h)) handlers with
        | Some h => snd h st'
        | None => (st', Raised e)
        end
    end.

Definition self : M BackendPlugin := fun st => (st, Returned (fst st)).

Definition assign (f : BackendPlugin -> BackendPlugin) : M unit :=
  fun st => ((f (fst st), snd st), Returned tt).

Definition in_world (f : World -> World) : M unit :=
  fun st => ((fst st, f (snd st)), Returned tt).

Definition add_log (e : LogEntry) (w : World) : World :=
  {| log := log w ++ [e]; notifications := notifications w; calls := calls w |}.

Definition add_notification (m : Message) (w : World) : World :=
  {| log := log w; notifications := notifications w ++ [m]; calls := calls w |}.

Definition add_call (c : PrimCall) (w : World) : World :=
  {| log := log w; notifications := notifications w; calls := calls w ++ [c] |}.

Module Logger.
Definition log (level text : string) : M unit :=
  in_world (add_log (mkLogEntry level false text)).
Definition info (text : string) : M unit := log "i" text.
Definition logException (level text : string) : M unit :=
  in_world (add_log (mkLogEntry level true text)).
End Logger.

(** The methods of the [subprocess.Popen] object the class uses.  The
    constructor asks the operating system for a process; [terminate] does
    nothing once the exit status is known and [wait] then returns the
    status it has; otherwise both go to the operating system, and [wait]
    keeps the status it gets in [returncode].  The only reference to the
    object is the field [_process], so [wait] updates the attribute there.

    [Popen_new] is the expression of [start] that makes the object: the
    call is recorded when it is made, that is unless the evaluation of the
    creation flag has raised before it. *)
Module Subprocess.
Definition Popen_new (argv : list string) (o : SpawnOutcome) : M Popen :=
  match o with
  | NoWindowFlag => raise Py.AttributeError
  | SpawnOk p =>
      in_world (add_call (CallPopen argv)) ;;
      ret (mkPopen p argv None)
  | SpawnRaise e =>
      in_world (add_call (CallPopen argv)) ;;
      raise e
  end.

Definition terminate (h : Popen) (o : TermOutcome) : M unit :=
  in_world (add_call (CallTerminate (pid h))) ;;
  match returncode h with
  | Some _ => ret tt
  | None =>
      match o with
      | TermOk => ret tt
      | TermRaise e => raise e
      end
  end.

Definition wait (h : Popen) (o : WaitOutcome) : M Z :=
  in_world (add_call (CallWait (pid h))) ;;
  match returncode h with
  | Some rc => ret rc
  | None =>
      match o with
      | WaitOk rc =>
          assign (with_process (Some (mkPopen (pid h) (args h) (Some rc)))) ;;
          ret rc
      | WaitRaise e => raise e
      | WaitInterrupted None => raise Py.KeyboardInterrupt
      | WaitInterrupted (Some rc) =>
          assign (with_process (Some (mkPopen (pid h) (args h) (Some rc)))) ;;
          raise Py.KeyboardInterrupt
      end
  end.
End Subprocess.

(** ** The methods *)

Section Methods.

Variable host : Host.

Definition getSupportedSlots (s : BackendPlugin) : list Z := supported_slots s.

Definition isRunning (s : BackendPlugin) : bool := is_running s.

Definition setPort (p : Z) (s : BackendPlugin) : BackendPlugin := with_port p s.

Definition getPort (s : BackendPlugin) : Z := port s.

Definition getAddress (s : BackendPlugin) : string := plugin_address s.

(** Truth value of a list. *)
Definition nonempty (l : list string) : bool :=
  match l with
  | [] => false
  | _ :: _ => true
  end.

(** [_validatePluginCommand].  [None] is false, so for it the test stops
    at [not self._plugin_command] and [None or []] is returned; a list is
    tested for emptiness first and for the flag second. *)
Definition validatePluginCommand (s : BackendPlugin) : list string :=
  match plugin_command s with
  | None => []
  | Some cmd =>
      if negb (nonempty cmd) || Py.contains "--port" cmd
      then (if nonempty cmd then cmd else [])
      else (cmd ++ ["--address"; getAddress s; "--port"; Py.str (port s)])%list
  end.

(** [_showMessage]. *)
Definition showMessage (message : string) (message_type : MessageType) : M unit :=
  in_world (add_notification
              (mkMessage message (i18nc host "@info:title" "EnginePlugin") message_type)).

(** [start].  The [try] block ends in [return True]; a handler that has
    run falls out of the [try] statement onto the final [return False].
    A block yields [Some b] when it executed [return b] and [None] when
    it ran to its end. *)
Definition start (o : SpawnOutcome) : M bool :=
  r <- try_except
         (s <- self ;;
          Logger.info ("Starting backend_plugin [" ++ plugin_id s
                       ++ "] with command: "
                       ++ str_of_list host (validatePluginCommand s)) ;;
          h <- Subprocess.Popen_new (validatePluginCommand s) o ;;
          assign (with_process (Some h)) ;;
          assign (with_is_running true) ;;
          ret (Some true))
         [ (Py.PermissionError,
            s <- self ;;
            Logger.log "e" ("Couldn't start EnginePlugin: " ++ plugin_id s
                            ++ " No permission to execute process.") ;;
            showMessage (i18nc host "@info:plugin_failed"
                           ("Couldn't start EnginePlugin: " ++ plugin_id s ++ Py.nl
                            ++ "No permission to execute process.")) ERROR ;;
            ret None);
           (Py.FileNotFoundError,
            s <- self ;;
            Logger.logException "e"
              ("Unable to find local EnginePlugin server executable for: "
               ++ plugin_id s) ;;
            showMessage (i18nc host "@info:plugin_failed"
                           ("Unable to find local EnginePlugin server executable for: "
                            ++ plugin_id s)) ERROR ;;
            ret None);
           (Py.BlockingIOError,
            s <- self ;;
            Logger.logException "e"
              ("Couldn't start EnginePlugin: " ++ plugin_id s
               ++ " Resource is temporarily unavailable") ;;
            showMessage (i18nc host "@info:plugin_failed"
                           ("Couldn't start EnginePlugin: " ++ plugin_id s ++ Py.nl
                            ++ "Resource is temporarily unavailable")) ERROR ;;
            ret None);
           (Py.OSError,
            s <- self ;;
            Logger.logException "e"
              ("Couldn't start EnginePlugin " ++ plugin_id s
               ++ " Operating system is blocking it (antivirus?)") ;;
            showMessage (i18nc host "@info:plugin_failed"
                           ("Couldn't start EnginePlugin: " ++ plugin_id s ++ Py.nl
                            ++ "Operating system is blocking it (antivirus?)")) ERROR ;;
            ret None) ] ;;
  match r with
  | Some b => ret b
  | None => ret false
  end.

(** [stop]. *)
Definition stop (t : TermOutcome) (wo : WaitOutcome) : M bool :=
  s <- self ;;
  match process s with
  | None =>
      assign (with_is_running false) ;;
      ret true
  | Some h =>
      try_except
        (Subprocess.terminate h t ;;
         return_code <- Subprocess.wait h wo ;;
         assign (with_is_running false) ;;
         Logger.log "d" ("EnginePlugin: " ++ plugin_id s
                         ++ " was killed. Received return code "
                         ++ Py.str return_code) ;;
         ret true)
        [ (Py.PermissionError,
           Logger.log "e" ("Unable to kill running EnginePlugin: " ++ plugin_id s
                           ++ " Access is denied.") ;;
           showMessage (i18nc host "@info:plugin_failed"
                          ("Unable to kill running EnginePlugin: " ++ plugin_id s
                           ++ Py.nl ++ "Access is denied.")) ERROR ;;
           ret false) ]
  end.

(** ** Sequences of calls

    One call of the public interface, with the answers of the operating
    system to the primitives it reaches. *)
Inductive Op : Type :=
| OpSetPort (p : Z)
| OpGetPort
| OpGetAddress
| OpGetSupportedSlots
| OpIsRunning
| OpStart (o : SpawnOutcome)
| OpStop (t : TermOutcome) (wo : WaitOutcome).

Definition step (c : Op) (st : St) : St :=
  match c with
  | OpSetPort p => (setPort p (fst st), snd st)
  | OpGetPort | OpGetAddress | OpGetSupportedSlots | OpIsRunning => st
  | OpStart o => fst (start o st)
  | OpStop t wo => fst (stop t wo st)
  end.

Fixpoint run (cs : list Op) (st : St) : St :=
  match cs with
  | [] => st
  | c :: cs' => run cs' (step c st)
  end.

End Methods.

(** ** Concrete inputs *)

(** A host for concrete runs: no translation is installed, and a list of
    strings is printed as Python prints it. *)
Definition plain_host : Host :=
  {| i18nc := fun _ text => text;
     str_of_list := Py.str_list |}.

(** The object as the constructor of a subclass leaves it, with its
    command set. *)
Definition configured (id : string) (cmd : option (list string)) : BackendPlugin :=
  {| plugin_id := id;
     port := 0;
     plugin_address := "127.0.0.1";
     plugin_command := cmd;
     process := None;
     is_running := false;
     supported_slots := [] |}.


(** A running object: the state [start] leaves after a successful spawn of
    process 7. *)
Definition running_engine : St :=
  fst (start plain_host (SpawnOk 7) (configured "engine" (Some ["exe"]), empty_world)).

(** ** Reading the [except] clauses of [start] *)

(** The failure a raised exception is reported as: the first clause of
    [start], in the order of the source, whose class it is an instance of. *)
Inductive StartFailure : Type :=
| NoPermission
| ExecutableNotFound
| ResourceUnavailable
| BlockedBySystem.

Definition classify (e : Py.ExcClass) : option StartFailure :=
  if Py.issubclass e Py.PermissionError then Some NoPermission
  else if Py.issubclass e Py.FileNotFoundError then Some ExecutableNotFound
  else if Py.issubclass e Py.BlockingIOError then Some ResourceUnavailable
  else if Py.issubclass e Py.OSError then Some BlockedBySystem
  else None.

(** The text before and after the identifier in the message shown to the
    user, and in the line logged, for each failure. *)
Definition shown_prefix (k : StartFailure) : string :=
  match k with
  | ExecutableNotFound => "Unable to find local EnginePlugin server executable for: "
  | _ => "Couldn't start EnginePlugin: "
  end.

Definition shown_suffix (k : StartFailure) : string :=
  match k with
  | NoPermission => Py.nl ++ "No permission to execute process."
  | ExecutableNotFound => EmptyString
  | ResourceUnavailable => Py.nl ++ "Resource is temporarily unavailable"
  | BlockedBySystem => Py.nl ++ "Operating system is blocking it (antivirus?)"
  end.

Definition logged_prefix (k : StartFailure) : string :=
  match k with
  | ExecutableNotFound => "Unable to find local EnginePlugin server executable for: "
  | BlockedBySystem => "Couldn't start EnginePlugin "
  | _ => "Couldn't start EnginePlugin: "
  end.

Definition logged_suffix (k : StartFailure) : string :=
  match k with
  | NoPermission => " No permission to execute process."
  | ExecutableNotFound => EmptyString
  | ResourceUnavailable => " Resource is temporarily unavailable"
  | BlockedBySystem => " Operating system is blocking it (antivirus?)"
  end.

Definition has_trace (k : StartFailure) : bool :=
  match k with
  | NoPermission => false
  | _ => true
  end.

Definition failure_notification (host : Host) (k : StartFailure) (id : string) : Message :=
  {| msg_text := i18nc host "@info:plugin_failed" (shown_prefix k ++ id ++ shown_suffix k);
     msg_title := i18nc host "@info:title" "EnginePlugin";
     msg_type := ERROR |}.

Definition failure_log (k : StartFailure) (id : string) : LogEntry :=
  {| log_level := "e";
     log_trace := has_trace k;
     log_text := logged_prefix k ++ id ++ logged_suffix k |}.

Definition starting_line (host : Host) (s : BackendPlugin) : LogEntry :=
  {| log_level := "i";
     log_trace := false;
     log_text := "Starting backend_plugin [" ++ plugin_id s ++ "] with command: "
                 ++ str_of_list host (validatePluginCommand s) |}.

(** The world once [start] has reached the spawn primitive. *)
Definition spawn_attempted (host : Host) (s : BackendPlugin) (w : World) : World :=
  add_call (CallPopen (validatePluginCommand s)) (add_log (starting_line host s) w).

(** No entry of the list carries a stack trace. *)
Definition untraced (entries : list LogEntry) : bool :=
  forallb (fun l => negb (log_trace l)) entries.

(** ** Reading [_validatePluginCommand] and [stop] *)

(** The validator as the specification words it: nothing for an absent
    template, the template itself when it holds the port flag, and
    otherwise the template followed by the four tokens. *)
Definition validator_as_specified
    (template : option (list string)) (address : string) (p : Z) : list string :=
  match template with
  | None => []
  | Some t =>
      if Py.contains "--port" t then t
      else (t ++ ["--address"; address; "--port"; Py.str p])%list
  end.

Definition stopped_line (s : BackendPlugin) (rc : Z) : LogEntry :=
  {| log_level := "d";
     log_trace := false;
     log_text := "EnginePlugin: " ++ plugin_id s
                 ++ " was killed. Received return code " ++ Py.str rc |}.

Definition denied_line (s : BackendPlugin) : LogEntry :=
  {| log_level := "e";
     log_trace := false;
     log_text := "Unable to kill running EnginePlugin: " ++ plugin_id s
                 ++ " Access is denied." |}.

Definition denied_notification (host : Host) (s : BackendPlugin) : Message :=
  {| msg_text := i18nc host "@info:plugin_failed"
                   ("Unable to kill running EnginePlugin: " ++ plugin_id s
                    ++ Py.nl ++ "Access is denied.");
     msg_title := i18nc host "@info:title" "EnginePlugin";
     msg_type := ERROR |}.

(** The object once [wait] has stored the exit status in the handle. *)
Definition reaped (h : Popen) (rc : Z) (s : BackendPlugin) : BackendPlugin :=
  with_process (Some (mkPopen (pid h) (args h) (Some rc))) s.

(** The object once a wait on the handle has been interrupted: the exit
    status is in the handle when the second wait collected it. *)
Definition interrupted (h : Popen) (rc : option Z) (s : BackendPlugin) : BackendPlugin :=
  match rc with
  | Some c => reaped h c s
  | None => s
  end.

(** The exit status [stop] reports: the one the handle already has, or the
    one the wait collects. *)
Definition exit_status (h : Popen) (rc : Z) : Z :=
  match returncode h with
  | Some c => c
  | None => rc
  end.

(** The handle needs no further answer from the operating system: there is
    none, or its exit status has been collected. *)
Definition settled (s : BackendPlugin) : bool :=
  match process s with
  | None => true
  | Some h =>
      match returncode h with
      | Some _ => true
      | None => false
      end
  end.

(** ** Predicates on the object and on sequences of calls *)

Definition held (s : BackendPlugin) : bool :=
  match process s with
  | Some _ => true
  | None => false
  end.

(** [is_running] implies that a handle is held. *)
Definition running_has_handle (s : BackendPlugin) : bool :=
  implb (is_running s) (held s).

(** The port a sequence of calls leaves: the argument of its last
    [setPort], or the port of before when it has none. *)
Fixpoint last_port (cs : list Op) (p : Z) : Z :=
  match cs with
  | [] => p
  | OpSetPort q :: cs' => last_port cs' q
  | _ :: cs' => last_port cs' p
  end.

(** A call of [start] whose spawn succeeded. *)
Definition spawned (c : Op) : bool :=
  match c with
  | OpStart (SpawnOk _) => true
  | _ => false
  end.

(** ** Readings for whole life cycles *)

(** The object with its command replaced, as a subclass sets it. *)
Definition with_command (cmd : option (list string)) (s : BackendPlugin) : BackendPlugin :=
  {| plugin_id := plugin_id s;
     port := port s;
     plugin_address := plugin_address s;
     plugin_command := cmd;
     process := process s;
     is_running := is_running s;
     supported_slots := supported_slots s |}.

Definition is_kill (c : PrimCall) : bool :=
  match c with
  | CallKill _ => true
  | _ => false
  end.

Definition is_spawn (c : PrimCall) : bool :=
  match c with
  | CallPopen _ => true
  | _ => false
  end.

(** The [Popen] call of the spawn is reached: the creation flag exists. *)
Definition call_reached (o : SpawnOutcome) : bool :=
  match o with
  | NoWindowFlag => false
  | _ => true
  end.

(** A call of [start] that reaches its [Popen] call. *)
Definition is_spawning_start (c : Op) : bool :=
  match c with
  | OpStart o => call_reached o
  | _ => false
  end.

(** A call that can report a failure: [start] or [stop]. *)
Definition is_action (c : Op) : bool :=
  match c with
  | OpStart _ | OpStop _ _ => true
  | _ => false
  end.

(** The call returned [False]. *)
Definition failed (r : Result bool) : bool :=
  match r with
  | Returned false => true
  | _ => false
  end.

(** A message as [_showMessage] makes them: of type [ERROR], under the
    title of the class. *)
Definition error_message (host : Host) (m : Message) : Prop :=
  msg_type m = ERROR /\ msg_title m = i18nc host "@info:title" "EnginePlugin".

(** What [stop] answers on a handle whose process has not been reaped,
    from the answers of the operating system: the only exception its
    [except] clause takes is a [PermissionError]. *)
Definition stop_answer (t : TermOutcome) (wo : WaitOutcome) : Result bool :=
  match t, wo with
  | TermRaise e, _
  | TermOk, WaitRaise e =>
      if Py.issubclass e Py.PermissionError then Returned false else Raised e
  | TermOk, WaitOk _ => Returned true
  | TermOk, WaitInterrupted _ => Raised Py.KeyboardInterrupt
  end.

(** The world [w'] continues the world [w]: the log, the messages and the
    calls of [w] are still there, in front; the messages added are error
    messages, at most [budget] of them; no call added is a [kill]; and
    [spawns] of the calls added are [Popen] calls. *)
Definition grown (host : Host) (budget spawns : nat) (w w' : World) : Prop :=
  exists l n k,
    log w' = (log w ++ l)%list
    /\ notifications w' = (notifications w ++ n)%list
    /\ calls w' = (calls w ++ k)%list
    /\ Forall (error_message host) n
    /\ (List.length n <= budget)%nat
    /\ existsb is_kill k = false
    /\ List.length (filter is_spawn k) = spawns.

(** * Properties *)

(** ** [start], case by case *)

Lemma append_empty_r (x : string) : x ++ EmptyString = x.
Proof.
  induction x as [|c x IH]; simpl; [reflexivity | now rewrite IH].
Qed.

Lemma start_spawned (host : Host) (s : BackendPlugin) (w : World) (p : positive) :
  start host (SpawnOk p) (s, w) =
  ((with_is_running true
      (with_process (Some (mkPopen p (validatePluginCommand s) None)) s),
    spawn_attempted host s w),
   Returned true).
Proof. reflexivity. Qed.

Lemma start_raised (host : Host) (s : BackendPlugin) (w : World) (e : Py.ExcClass) :
  start host (SpawnRaise e) (s, w) =
  match classify e with
  | Some k =>
      ((s, add_notification (failure_notification host k (plugin_id s))
             (add_log (failure_log k (plugin_id s)) (spawn_attempted host s w))),
       Returned false)
  | None => ((s, spawn_attempted host s w), Raised e)
  end.
Proof.
  destruct e; try reflexivity;
    cbv [classify Py.issubclass Py.mro existsb Py.eqb orb];
    unfold start, try_except, bind; simpl;
    unfold failure_notification, failure_log; simpl;
    rewrite ?append_empty_r; reflexivity.
Qed.

Lemma start_unreached (host : Host) (s : BackendPlugin) (w : World) :
  start host NoWindowFlag (s, w) =
  ((s, add_log (starting_line host s) w), Raised Py.AttributeError).
Proof. reflexivity. Qed.

Lemma classify_OSError (e : Py.ExcClass) :
  Py.issubclass e Py.OSError = true <-> exists k, classify e = Some k.
Proof.
  split.
  - destruct e; simpl; intros H; try discriminate H; eexists; reflexivity.
  - intros [k H]; destruct e; simpl in *; try reflexivity; discriminate H.
Qed.

Lemma start_object (host : Host) (o : SpawnOutcome) (s : BackendPlugin) (w : World) :
  fst (fst (start host o (s, w))) =
  match o with
  | SpawnOk p =>
      with_is_running true
        (with_process (Some (mkPopen p (validatePluginCommand s) None)) s)
  | _ => s
  end.
Proof.
  destruct o as [p|e|].
  - rewrite start_spawned. reflexivity.
  - rewrite start_raised. destruct (classify e); reflexivity.
  - rewrite start_unreached. reflexivity.
Qed.

(** ** Failures of [start] *)

(** C1.  Whatever the state, when the spawn attempt of [start] raises an
    exception that one of the four [except] clauses classifies, [start]
    returns [False], leaves [is_running] as it was (so it does not become
    true), shows exactly one message, of type [ERROR], whose text is built
    around the plugin identifier, and logs the starting line followed by
    one line of level [e].  For a permission denial that line carries no
    stack trace, so from a stopped object the call leaves [isRunning()]
    false, shows the one permission message and logs nothing with a trace. *)
Theorem start_failure_reported
    (host : Host) (s : BackendPlugin) (w : World)
    (e : Py.ExcClass) (k : StartFailure) :
  classify e = Some k ->
  exists s' w',
    start host (SpawnRaise e) (s, w) = ((s', w'), Returned false)
    /\ is_running s' = is_running s
    /\ notifications w' =
         (notifications w ++ [failure_notification host k (plugin_id s)])%list
    /\ msg_type (failure_notification host k (plugin_id s)) = ERROR
    /\ msg_text (failure_notification host k (plugin_id s)) =
         i18nc host "@info:plugin_failed" (shown_prefix k ++ plugin_id s ++ shown_suffix k)
    /\ log w' = (log w ++ [starting_line host s; failure_log k (plugin_id s)])%list
    /\ log_level (failure_log k (plugin_id s)) = "e"
    /\ log_text (failure_log k (plugin_id s)) =
         logged_prefix k ++ plugin_id s ++ logged_suffix k
    /\ (Py.issubclass e Py.PermissionError = true ->
        k = NoPermission
        /\ (is_running s = false -> isRunning s' = false)
        /\ untraced [starting_line host s; failure_log k (plugin_id s)] = true).
Proof.
  intros Hk.
  exists s.
  eexists.
  split.
  - rewrite start_raised, Hk. reflexivity.
  - do 4 (split; [reflexivity|]).
    split; [simpl; rewrite <- app_assoc; reflexivity|].
    do 2 (split; [reflexivity|]).
    intros Hperm.
    assert (k = NoPermission) as ->.
    { destruct e; try discriminate Hperm. cbv in Hk. congruence. }
    split; [reflexivity|].
    split; [intros Hstopped; exact Hstopped|reflexivity].
Qed.

Lemma start_failure_reported_witness :
  exists s' w',
    start plain_host (SpawnRaise Py.PermissionError) (init "engine", empty_world)
    = ((s', w'), Returned false)
    /\ isRunning s' = false
    /\ notifications w' = [failure_notification plain_host NoPermission "engine"]
    /\ untraced (log w') = true.
Proof.
  destruct (start_failure_reported plain_host (init "engine") empty_world
              Py.PermissionError NoPermission eq_refl)
    as (s' & w' & Hrun & _ & Hshown & _ & _ & Hlog & _ & _ & Hperm).
  destruct (Hperm eq_refl) as (_ & Hstopped & Hquiet).
  exists s', w'.
  split; [exact Hrun|].
  split; [exact (Hstopped eq_refl)|].
  split; [exact Hshown|].
  rewrite Hlog. exact Hquiet.
Defined.




(** C10.  A [start] whose spawn raises a handled exception changes no field
    of the object: the handle, the running flag, the port, the address, the
    command and the slots are those of before the call.  On an object that
    was running, the flag is still true and the handle is the one stored
    before. *)
Theorem failed_start_keeps_fields
    (host : Host) (s : BackendPlugin) (w : World) (e : Py.ExcClass) :
  Py.issubclass e Py.OSError = true ->
  let s' := fst (fst (start host (SpawnRaise e) (s, w))) in
  snd (start host (SpawnRaise e) (s, w)) = Returned false
  /\ s' = s
  /\ process s' = process s
  /\ is_running s' = is_running s
  /\ port s' = port s
  /\ plugin_address s' = plugin_address s
  /\ plugin_command s' = plugin_command s
  /\ supported_slots s' = supported_slots s
  /\ (forall h, is_running s = true -> process s = Some h ->
      is_running s' = true /\ process s' = Some h).
Proof.
  intros He. apply classify_OSError in He. destruct He as [k Hk].
  cbv zeta. rewrite start_raised, Hk. simpl.
  repeat split; auto.
Qed.

Lemma failed_start_keeps_fields_witness :
  fst (fst (start plain_host (SpawnRaise Py.FileNotFoundError)
              (fst (start plain_host (SpawnOk 7) (init "engine", empty_world)))))
  = fst (fst (start plain_host (SpawnOk 7) (init "engine", empty_world)))
  /\ is_running
       (fst (fst (start plain_host (SpawnRaise Py.FileNotFoundError)
                    (fst (start plain_host (SpawnOk 7) (init "engine", empty_world))))))
     = true.
Proof.
  pose proof (failed_start_keeps_fields plain_host
                (with_is_running true
                   (with_process (Some (mkPopen 7 [] None)) (init "engine")))
                (spawn_attempted plain_host (init "engine") empty_world)
                Py.FileNotFoundError eq_refl) as H.
  cbv zeta in H.
  destruct H as (_ & Hsame & _ & _ & _ & _ & _ & _ & Hrun).
  split.
  - exact Hsame.
  - exact (proj1 (Hrun (mkPopen 7 [] None) eq_refl eq_refl)).
Defined.

(** ** The command validator *)

Lemma contains_In (x : string) (l : list string) :
  Py.contains x l = true <-> In x l.
Proof.
  unfold Py.contains. rewrite existsb_exists. split.
  - intros (y & Hy & Heq). apply String.eqb_eq in Heq. now subst.
  - intros Hx. exists x. split; [exact Hx | apply String.eqb_refl].
Qed.

Lemma contains_not_In (x : string) (l : list string) :
  Py.contains x l = false <-> ~ In x l.
Proof.
  rewrite <- contains_In. destruct (Py.contains x l); split; congruence.
Qed.

(** On a configured but empty template the code returns the empty list,
    where the three cases of the specification append the four tokens. *)
Lemma validator_empty_template :
  validatePluginCommand (configured "engine" (Some [])) = []
  /\ validator_as_specified (Some []) "127.0.0.1" 0
     = ["--address"; "127.0.0.1"; "--port"; "0"]
  /\ validatePluginCommand (configured "engine" (Some []))
     <> validator_as_specified
          (plugin_command (configured "engine" (Some [])))
          (plugin_address (configured "engine" (Some [])))
          (port (configured "engine" (Some []))).
Proof.
  split; [reflexivity|]. split; [reflexivity|]. discriminate.
Qed.

(** C2, as the code has it.  The validated command depends on the template,
    the address and the port alone.  It is empty when no template is
    configured and also when the configured template is empty; it is the
    template itself when that holds the token [--port]; otherwise it is the
    template followed by [--address], the address, [--port] and the port
    in decimal, four tokens in this order. *)
Theorem validatePluginCommand_cases (s : BackendPlugin) :
  (plugin_command s = None \/ plugin_command s = Some [] ->
   validatePluginCommand s = [])
  /\ (forall t, plugin_command s = Some t -> In "--port" t ->
      validatePluginCommand s = t)
  /\ (forall t, plugin_command s = Some t -> t <> [] -> ~ In "--port" t ->
      validatePluginCommand s
      = (t ++ ["--address"; plugin_address s; "--port"; Py.str (port s)])%list)
  /\ (forall s2, plugin_command s2 = plugin_command s ->
      plugin_address s2 = plugin_address s -> port s2 = port s ->
      validatePluginCommand s2 = validatePluginCommand s).
Proof.
  unfold validatePluginCommand, getAddress.
  split; [|split; [|split]].
  - intros [-> | ->]; reflexivity.
  - intros t -> Hin. apply contains_In in Hin. rewrite Hin.
    destruct t; [destruct (proj1 (contains_In _ _) Hin)|].
    rewrite orb_true_r. reflexivity.
  - intros t -> Hne Hnot. apply contains_not_In in Hnot. rewrite Hnot.
    destruct t; [congruence|]. reflexivity.
  - intros s2 -> -> ->. reflexivity.
Qed.

Lemma validatePluginCommand_cases_witness :
  validatePluginCommand (setPort 9000 (configured "engine" (Some ["exe"])))
  = ["exe"; "--address"; "127.0.0.1"; "--port"; "9000"]
  /\ validatePluginCommand (configured "engine" (Some ["exe"; "--port"; "1"]))
     = ["exe"; "--port"; "1"]
  /\ validatePluginCommand (init "engine") = [].
Proof.
  split; [|split].
  - apply (proj1 (proj2 (proj2
             (validatePluginCommand_cases
                (setPort 9000 (configured "engine" (Some ["exe"]))))))
             ["exe"] eq_refl).
    + discriminate.
    + simpl. intros [H | []]. discriminate H.
  - apply (proj1 (proj2
             (validatePluginCommand_cases
                (configured "engine" (Some ["exe"; "--port"; "1"]))))
             ["exe"; "--port"; "1"] eq_refl).
    simpl. right. left. reflexivity.
  - apply (proj1 (validatePluginCommand_cases (init "engine"))).
    left. reflexivity.
Defined.

(** ** [stop], case by case *)

(** Runs [stop] up to the calls on the handle, given what the field
    [process] holds ([H]) and the exit status of the handle ([Hrc]). *)
Ltac enter_stop H Hrc :=
  unfold stop, bind, self; simpl; rewrite H;
  unfold try_except, bind, Subprocess.terminate, Subprocess.wait, bind;
  simpl; rewrite Hrc.

Lemma stop_no_handle (host : Host) (s : BackendPlugin) (w : World)
    (t : TermOutcome) (wo : WaitOutcome) :
  process s = None ->
  stop host t wo (s, w) = ((with_is_running false s, w), Returned true).
Proof.
  intros H. unfold stop, bind, self. simpl. rewrite H. reflexivity.
Qed.

Lemma stop_live (host : Host) (s : BackendPlugin) (w : World) (h : Popen) (rc : Z) :
  process s = Some h -> returncode h = None ->
  stop host TermOk (WaitOk rc) (s, w) =
  ((with_is_running false (reaped h rc s),
    add_log (stopped_line s rc)
      (add_call (CallWait (pid h)) (add_call (CallTerminate (pid h)) w))),
   Returned true).
Proof.
  intros H Hrc. enter_stop H Hrc. reflexivity.
Qed.

Lemma stop_exited (host : Host) (s : BackendPlugin) (w : World) (h : Popen) (rc : Z)
    (t : TermOutcome) (wo : WaitOutcome) :
  process s = Some h -> returncode h = Some rc ->
  stop host t wo (s, w) =
  ((with_is_running false s,
    add_log (stopped_line s rc)
      (add_call (CallWait (pid h)) (add_call (CallTerminate (pid h)) w))),
   Returned true).
Proof.
  intros H Hrc. enter_stop H Hrc. reflexivity.
Qed.

Lemma stop_terminate_raised (host : Host) (s : BackendPlugin) (w : World) (h : Popen)
    (e : Py.ExcClass) (wo : WaitOutcome) :
  process s = Some h -> returncode h = None ->
  stop host (TermRaise e) wo (s, w) =
  if Py.issubclass e Py.PermissionError
  then ((s, add_notification (denied_notification host s)
              (add_log (denied_line s) (add_call (CallTerminate (pid h)) w))),
        Returned false)
  else ((s, add_call (CallTerminate (pid h)) w), Raised e).
Proof.
  intros H Hrc. enter_stop H Hrc. destruct e; reflexivity.
Qed.

Lemma stop_wait_raised (host : Host) (s : BackendPlugin) (w : World) (h : Popen)
    (e : Py.ExcClass) :
  process s = Some h -> returncode h = None ->
  stop host TermOk (WaitRaise e) (s, w) =
  if Py.issubclass e Py.PermissionError
  then ((s, add_notification (denied_notification host s)
              (add_log (denied_line s)
                 (add_call (CallWait (pid h)) (add_call (CallTerminate (pid h)) w)))),
        Returned false)
  else ((s, add_call (CallWait (pid h)) (add_call (CallTerminate (pid h)) w)),
        Raised e).
Proof.
  intros H Hrc. enter_stop H Hrc. destruct e; reflexivity.
Qed.

Lemma stop_wait_interrupted (host : Host) (s : BackendPlugin) (w : World) (h : Popen)
    (rc : option Z) :
  process s = Some h -> returncode h = None ->
  stop host TermOk (WaitInterrupted rc) (s, w) =
  ((interrupted h rc s,
    add_call (CallWait (pid h)) (add_call (CallTerminate (pid h)) w)),
   Raised Py.KeyboardInterrupt).
Proof.
  intros H Hrc. enter_stop H Hrc. destruct rc; reflexivity.
Qed.

(** [stop] touches the running flag, which it can only clear, and the exit
    status inside the handle; the handle stays the one it was. *)
Lemma stop_object (host : Host) (t : TermOutcome) (wo : WaitOutcome)
    (s : BackendPlugin) (w : World) :
  exists b h',
    fst (fst (stop host t wo (s, w))) = with_is_running b (with_process h' s)
    /\ (b = is_running s \/ b = false)
    /\ option_map pid h' = option_map pid (process s)
    /\ option_map args h' = option_map args (process s).
Proof.
  assert (forall (x : BackendPlugin) (k : option Popen),
             process x = k ->
             x = with_is_running (is_running x) (with_process k x))
    as Hsame by (intros x k <-; destruct x; reflexivity).
  assert (forall (x : BackendPlugin) (k : option Popen),
             process x = k ->
             with_is_running false x = with_is_running false (with_process k x))
    as Hclear by (intros x k <-; destruct x; reflexivity).
  destruct (process s) as [h|] eqn:H.
  - destruct (returncode h) as [c|] eqn:Hrc.
    + rewrite (stop_exited host s w h c t wo H Hrc).
      exists false, (Some h). simpl.
      split; [apply Hclear, H|auto].
    + destruct t as [|e].
      * destruct wo as [rc|e|orc].
        -- rewrite (stop_live host s w h rc H Hrc).
           exists false, (Some (mkPopen (pid h) (args h) (Some rc))).
           simpl. split; [destruct s; reflexivity|auto].
        -- rewrite (stop_wait_raised host s w h e H Hrc).
           exists (is_running s), (Some h).
           split; [|auto].
           destruct (Py.issubclass e Py.PermissionError); apply Hsame, H.
        -- rewrite (stop_wait_interrupted host s w h orc H Hrc).
           destruct orc as [c|]; simpl.
           ++ exists (is_running s), (Some (mkPopen (pid h) (args h) (Some c))).
              split; [destruct s; reflexivity|auto].
           ++ exists (is_running s), (Some h).
              split; [apply Hsame, H|auto].
      * rewrite (stop_terminate_raised host s w h e wo H Hrc).
        exists (is_running s), (Some h).
        split; [|auto].
        destruct (Py.issubclass e Py.PermissionError); apply Hsame, H.
  - rewrite (stop_no_handle host s w t wo H).
    exists false, None.
    split; [apply Hclear, H|auto].
Qed.

Lemma stop_settled (host : Host) (s : BackendPlugin) (w : World)
    (t : TermOutcome) (wo : WaitOutcome) :
  settled s = true ->
  exists w',
    stop host t wo (s, w) = ((with_is_running false s, w'), Returned true)
    /\ notifications w' = notifications w.
Proof.
  unfold settled. intros Hs.
  destruct (process s) as [h|] eqn:H.
  - destruct (returncode h) as [c|] eqn:Hrc; [|discriminate Hs].
    eexists. split; [apply (stop_exited host s w h c t wo H Hrc)|reflexivity].
  - exists w. split; [apply (stop_no_handle host s w t wo H)|reflexivity].
Qed.

Lemma stop_success_settled (host : Host) (st st1 : St)
    (t : TermOutcome) (wo : WaitOutcome) :
  stop host t wo st = (st1, Returned true) ->
  settled (fst st1) = true
  /\ is_running (fst st1) = false
  /\ notifications (snd st1) = notifications (snd st).
Proof.
  destruct st as [s w]. intros Hstop.
  destruct (process s) as [h|] eqn:H.
  - destruct (returncode h) as [c|] eqn:Hrc.
    + rewrite (stop_exited host s w h c t wo H Hrc) in Hstop.
      injection Hstop as <-. unfold settled. simpl. rewrite H, Hrc. auto.
    + destruct t as [|e].
      * destruct wo as [rc|e|orc].
        -- rewrite (stop_live host s w h rc H Hrc) in Hstop.
           injection Hstop as <-. auto.
        -- rewrite (stop_wait_raised host s w h e H Hrc) in Hstop.
           destruct (Py.issubclass e Py.PermissionError); discriminate Hstop.
        -- rewrite (stop_wait_interrupted host s w h orc H Hrc) in Hstop.
           discriminate Hstop.
      * rewrite (stop_terminate_raised host s w h e wo H Hrc) in Hstop.
        destruct (Py.issubclass e Py.PermissionError); discriminate Hstop.
  - rewrite (stop_no_handle host s w t wo H) in Hstop.
    injection Hstop as <-. unfold settled. simpl. rewrite H. auto.
Qed.

(** ** Stopping *)

(** C4.  On an object that holds a handle, when the terminate request and
    the wait succeed, [stop] calls [terminate] and then [wait] on that
    process and nothing else (in particular not [kill]), keeps the exit
    status in the handle, sets [is_running] to false, logs one line of
    level [d] with the identifier and the exit status, shows no message
    and returns [True]. *)
Theorem stop_terminates_and_waits
    (host : Host) (s : BackendPlugin) (w : World) (h : Popen) (rc : Z) :
  process s = Some h ->
  exists s' w',
    stop host TermOk (WaitOk rc) (s, w) = ((s', w'), Returned true)
    /\ calls w' = (calls w ++ [CallTerminate (pid h); CallWait (pid h)])%list
    /\ (forall p, ~ In (CallKill p) [CallTerminate (pid h); CallWait (pid h)])
    /\ process s' = Some (mkPopen (pid h) (args h) (Some (exit_status h rc)))
    /\ isRunning s' = false
    /\ log w' = (log w ++ [stopped_line s (exit_status h rc)])%list
    /\ log_level (stopped_line s (exit_status h rc)) = "d"
    /\ log_text (stopped_line s (exit_status h rc)) =
         "EnginePlugin: " ++ plugin_id s ++ " was killed. Received return code "
         ++ Py.str (exit_status h rc)
    /\ notifications w' = notifications w.
Proof.
  intros H. unfold exit_status.
  destruct (returncode h) as [c|] eqn:Hrc.
  - exists (with_is_running false s). eexists.
    split; [apply (stop_exited host s w h c _ _ H Hrc)|].
    split; [simpl; rewrite <- app_assoc; reflexivity|].
    split; [intros p [Hp | [Hp | []]]; discriminate Hp|].
    split; [simpl; rewrite H; destruct h; simpl in *; congruence|].
    repeat (split; [reflexivity|]). reflexivity.
  - exists (with_is_running false (reaped h rc s)). eexists.
    split; [apply (stop_live host s w h rc H Hrc)|].
    split; [simpl; rewrite <- app_assoc; reflexivity|].
    split; [intros p [Hp | [Hp | []]]; discriminate Hp|].
    repeat (split; [reflexivity|]). reflexivity.
Qed.

Lemma stop_terminates_and_waits_witness :
  exists s' w',
    stop plain_host TermOk (WaitOk 0) running_engine = ((s', w'), Returned true)
    /\ isRunning s' = false
    /\ log w' = (log (snd running_engine)
                 ++ [mkLogEntry "d" false
                       "EnginePlugin: engine was killed. Received return code 0"])%list.
Proof.
  destruct (stop_terminates_and_waits plain_host (fst running_engine) (snd running_engine)
              (mkPopen 7 ["exe"; "--address"; "127.0.0.1"; "--port"; "0"] None) 0 eq_refl)
    as (s' & w' & Hrun & _ & _ & _ & Hflag & Hlog & _).
  exists s', w'.
  split; [exact Hrun|]. split; [exact Hflag|exact Hlog].
Defined.

(** C5.  When the operating system answers the terminate request of [stop]
    with a permission error, [stop] returns [False], leaves the object as
    it was ([is_running] has the value of before the call), shows exactly
    one message, of type [ERROR] and built around the identifier, and logs
    one line of level [e]. *)
Theorem stop_denied_keeps_state
    (host : Host) (s : BackendPlugin) (w : World) (h : Popen) (wo : WaitOutcome) :
  process s = Some h ->
  returncode h = None ->
  exists s' w',
    stop host (TermRaise Py.PermissionError) wo (s, w) = ((s', w'), Returned false)
    /\ isRunning s' = isRunning s
    /\ s' = s
    /\ notifications w' = (notifications w ++ [denied_notification host s])%list
    /\ msg_type (denied_notification host s) = ERROR
    /\ msg_text (denied_notification host s) =
         i18nc host "@info:plugin_failed"
           ("Unable to kill running EnginePlugin: " ++ plugin_id s
            ++ Py.nl ++ "Access is denied.")
    /\ log w' = (log w ++ [denied_line s])%list
    /\ log_level (denied_line s) = "e"
    /\ calls w' = (calls w ++ [CallTerminate (pid h)])%list.
Proof.
  intros H Hrc. exists s. eexists.
  split; [rewrite (stop_terminate_raised host s w h _ wo H Hrc); reflexivity|].
  repeat (split; [reflexivity|]). reflexivity.
Qed.

Lemma stop_denied_keeps_state_witness :
  exists s' w',
    stop plain_host (TermRaise Py.PermissionError) (WaitOk 0) running_engine
    = ((s', w'), Returned false)
    /\ isRunning s' = true
    /\ notifications w' = [denied_notification plain_host (fst running_engine)].
Proof.
  destruct (stop_denied_keeps_state plain_host (fst running_engine) (snd running_engine)
              (mkPopen 7 ["exe"; "--address"; "127.0.0.1"; "--port"; "0"] None)
              (WaitOk 0) eq_refl eq_refl)
    as (s' & w' & Hrun & Hflag & _ & Hshown & _).
  exists s', w'.
  split; [exact Hrun|]. split; [exact Hflag|exact Hshown].
Defined.

(** C6.  On an object without a handle [stop] sets [is_running] to false,
    returns [True] and touches nothing else.  After a [stop] that returned
    [True], which itself shows no message, two further calls of [stop]
    return [True] both, whatever the operating system would answer, and
    neither shows a message. *)
Theorem stop_idempotent (host : Host) :
  (forall s w t wo,
      process s = None ->
      stop host t wo (s, w) = ((with_is_running false s, w), Returned true)
      /\ isRunning (with_is_running false s) = false)
  /\ (forall st st1 t wo,
      stop host t wo st = (st1, Returned true) ->
      notifications (snd st1) = notifications (snd st)
      /\ forall t2 wo2 t3 wo3,
          exists st2 st3,
            stop host t2 wo2 st1 = (st2, Returned true)
            /\ stop host t3 wo3 st2 = (st3, Returned true)
            /\ notifications (snd st2) = notifications (snd st1)
            /\ notifications (snd st3) = notifications (snd st1)
            /\ isRunning (fst st2) = false
            /\ isRunning (fst st3) = false).
Proof.
  split.
  - intros s w t wo H. split; [apply stop_no_handle; exact H|reflexivity].
  - intros st st1 t wo Hstop.
    destruct (stop_success_settled host st st1 t wo Hstop) as (Hset & _ & Hnote).
    split; [exact Hnote|].
    intros t2 wo2 t3 wo3.
    destruct st1 as [s1 w1]. simpl in Hset.
    destruct (stop_settled host s1 w1 t2 wo2 Hset) as (w2 & Hstop2 & Hnote2).
    assert (settled (with_is_running false s1) = true) as Hset2 by exact Hset.
    destruct (stop_settled host _ w2 t3 wo3 Hset2) as (w3 & Hstop3 & Hnote3).
    eexists. eexists.
    split; [exact Hstop2|]. split; [exact Hstop3|].
    simpl. split; [exact Hnote2|]. split; [congruence|]. split; reflexivity.
Qed.

Lemma stop_idempotent_witness :
  stop plain_host TermOk (WaitOk 0) (init "engine", empty_world)
  = ((init "engine", empty_world), Returned true)
  /\ exists st2 st3,
       stop plain_host (TermRaise Py.PermissionError) (WaitRaise Py.OSError)
         (fst (stop plain_host TermOk (WaitOk 0) running_engine))
       = (st2, Returned true)
       /\ stop plain_host (TermRaise Py.PermissionError) (WaitRaise Py.OSError) st2
          = (st3, Returned true)
       /\ notifications (snd st3) = [].
Proof.
  destruct (stop_idempotent plain_host) as [Hnone Hagain].
  split.
  - exact (proj1 (Hnone (init "engine") empty_world TermOk (WaitOk 0) eq_refl)).
  - destruct (Hagain running_engine
                (fst (stop plain_host TermOk (WaitOk 0) running_engine))
                TermOk (WaitOk 0) eq_refl) as [_ Hboth].
    destruct (Hboth (TermRaise Py.PermissionError) (WaitRaise Py.OSError)
                (TermRaise Py.PermissionError) (WaitRaise Py.OSError))
      as (st2 & st3 & H2 & H3 & _ & Hn3 & _).
    exists st2, st3.
    split; [exact H2|]. split; [exact H3|]. exact Hn3.
Defined.

(** ** What one call does to the object *)

Lemma step_running_has_handle (host : Host) (c : Op) (st : St) :
  running_has_handle (fst st) = true ->
  running_has_handle (fst (step host c st)) = true.
Proof.
  destruct st as [s w]. unfold running_has_handle, held.
  destruct c as [p| | | | |o|t wo]; simpl; try (intros H; exact H).
  - rewrite start_object. destruct o; [reflexivity|intros H; exact H ..].
  - destruct (stop_object host t wo s w) as (b & h' & -> & Hb & Hpid & _).
    simpl. intros Hinv.
    destruct Hb as [-> | ->]; [|reflexivity].
    destruct (is_running s); [|reflexivity].
    destruct (process s); [|discriminate Hinv].
    destruct h'; [reflexivity|discriminate Hpid].
Qed.

Lemma run_running_has_handle (host : Host) (cs : list Op) (st : St) :
  running_has_handle (fst st) = true ->
  running_has_handle (fst (run host cs st)) = true.
Proof.
  revert st. induction cs as [|c cs IH]; intros st Hinv; simpl.
  - exact Hinv.
  - apply IH, step_running_has_handle, Hinv.
Qed.

Lemma step_port (host : Host) (c : Op) (st : St) :
  port (fst (step host c st)) =
  match c with
  | OpSetPort q => q
  | _ => port (fst st)
  end.
Proof.
  destruct st as [s w].
  destruct c as [p| | | | |o|t wo]; simpl; try reflexivity.
  - rewrite start_object. destruct o; reflexivity.
  - destruct (stop_object host t wo s w) as (b & h' & -> & _). reflexivity.
Qed.

Lemma step_held (host : Host) (c : Op) (st : St) :
  held (fst (step host c st)) = spawned c || held (fst st).
Proof.
  destruct st as [s w]. unfold held.
  destruct c as [p| | | | |o|t wo]; simpl; try reflexivity.
  - rewrite start_object. destruct o; reflexivity.
  - destruct (stop_object host t wo s w) as (b & h' & -> & _ & Hpid & _). simpl.
    destruct h', (process s); try reflexivity; discriminate Hpid.
Qed.

(** ** Invariants along sequences of calls *)

(** C7.  In the object as constructed, and after every sequence of calls
    of [setPort], [start], [stop] and the getters made on it, with any
    answers of the operating system, [is_running] true implies that a
    handle is held; one more call of any of them keeps it so. *)
Theorem running_implies_handle
    (host : Host) (id : string) (cmd : option (list string)) (w : World)
    (cs : list Op) (c : Op) :
  running_has_handle (init id) = true
  /\ running_has_handle (fst (run host cs (configured id cmd, w))) = true
  /\ running_has_handle (fst (step host c (run host cs (configured id cmd, w)))) = true.
Proof.
  split; [reflexivity|].
  assert (running_has_handle (fst (run host cs (configured id cmd, w))) = true) as H
    by (apply run_running_has_handle; reflexivity).
  split; [exact H|].
  apply step_running_has_handle, H.
Qed.

(** The claim of C8 fails on the code: after a successful [start] of the
    command [exe] the object is running with port 0, and [setPort] then
    stores 9000. *)
Lemma setPort_changes_port_while_running :
  isRunning (fst (run plain_host [OpStart (SpawnOk 7)]
                    (configured "engine" (Some ["exe"]), empty_world)))
  = true
  /\ getPort (fst (run plain_host [OpStart (SpawnOk 7)]
                     (configured "engine" (Some ["exe"]), empty_world)))
     = 0%Z
  /\ isRunning (fst (run plain_host [OpStart (SpawnOk 7); OpSetPort 9000]
                       (configured "engine" (Some ["exe"]), empty_world)))
     = true
  /\ getPort (fst (run plain_host [OpStart (SpawnOk 7); OpSetPort 9000]
                     (configured "engine" (Some ["exe"]), empty_world)))
     = 9000%Z.
Proof. repeat split. Qed.

(** C8, as the code has it.  [start], [stop] and the getters never change
    the stored port, running or not; [setPort] stores its argument
    whatever [is_running] is and leaves that flag alone.  So after any
    sequence of calls the port is the argument of the last [setPort], or
    the initial port when there was none. *)
Theorem port_changes_only_by_setPort
    (host : Host) (cs : list Op) (c : Op) (s : BackendPlugin) (w : World) (q : Z) :
  port (fst (step host c (s, w))) =
    match c with
    | OpSetPort p => p
    | _ => port s
    end
  /\ getPort (setPort q s) = q
  /\ isRunning (setPort q s) = isRunning s
  /\ port (fst (run host cs (s, w))) = last_port cs (port s).
Proof.
  split; [apply step_port|].
  split; [reflexivity|]. split; [reflexivity|].
  revert s w. induction cs as [|d cs IH]; intros s w; simpl; [reflexivity|].
  destruct (step host d (s, w)) as [s1 w1] eqn:Hstep.
  rewrite IH.
  pose proof (step_port host d (s, w)) as Hp. rewrite Hstep in Hp. simpl in Hp.
  rewrite Hp. destruct d; reflexivity.
Qed.

(** The claim of C9 fails on the code: after a successful [start] and a
    successful [stop] the object is not running and still holds the
    handle of the process that exited. *)
Lemma handle_kept_after_stop :
  isRunning (fst (run plain_host [OpStart (SpawnOk 7); OpStop TermOk (WaitOk 0)]
                    (configured "engine" (Some ["exe"]), empty_world)))
  = false
  /\ process (fst (run plain_host [OpStart (SpawnOk 7); OpStop TermOk (WaitOk 0)]
                     (configured "engine" (Some ["exe"]), empty_world)))
     = Some (mkPopen 7 ["exe"; "--address"; "127.0.0.1"; "--port"; "0"] (Some 0%Z))
  /\ snd (stop plain_host TermOk (WaitOk 0)
            (run plain_host [OpStart (SpawnOk 7)]
               (configured "engine" (Some ["exe"]), empty_world)))
     = Returned true.
Proof. repeat split. Qed.

(** C9, as the code has it.  The constructed object holds no handle, and
    after any sequence of calls a handle is held exactly when one of the
    calls was a [start] whose spawn succeeded: no call gives the handle
    up.  In particular [stop] keeps the handle of the process it stopped,
    and an object on which no [start] has succeeded holds none and is not
    running. *)
Theorem handle_held_once_spawned
    (host : Host) (id : string) (cmd : option (list string)) (w : World)
    (cs : list Op) (s : BackendPlugin) (t : TermOutcome) (wo : WaitOutcome) :
  process (init id) = None
  /\ held (fst (run host cs (configured id cmd, w))) = existsb spawned cs
  /\ (existsb spawned cs = false ->
      process (fst (run host cs (configured id cmd, w))) = None
      /\ isRunning (fst (run host cs (configured id cmd, w))) = false)
  /\ option_map pid (process (fst (fst (stop host t wo (s, w)))))
     = option_map pid (process s).
Proof.
  assert (forall st, held (fst (run host cs st)) = existsb spawned cs || held (fst st))
    as Hrun.
  { induction cs as [|d cs IH]; intros st; simpl; [reflexivity|].
    rewrite IH, step_held. now rewrite orb_assoc, (orb_comm (existsb spawned cs)). }
  split; [reflexivity|].
  split; [rewrite Hrun; apply orb_false_r|].
  split.
  - intros Hnone.
    pose proof (Hrun (configured id cmd, w)) as Hheld.
    rewrite Hnone in Hheld. simpl in Hheld.
    pose proof (run_running_has_handle host cs (configured id cmd, w) eq_refl) as Hinv.
    unfold running_has_handle in Hinv. rewrite Hheld in Hinv.
    unfold held in Hheld. unfold isRunning.
    destruct (process (fst (run host cs (configured id cmd, w)))); [discriminate Hheld|].
    destruct (is_running (fst (run host cs (configured id cmd, w))));
      [discriminate Hinv|auto].
  - destruct (stop_object host t wo s w) as (b & h' & -> & _ & Hpid & _). exact Hpid.
Qed.

Lemma handle_held_once_spawned_witness :
  process (fst (run plain_host
                  [OpSetPort 9000; OpStart (SpawnRaise Py.PermissionError);
                   OpStop TermOk (WaitOk 0)]
                  (configured "engine" (Some ["exe"]), empty_world)))
  = None.
Proof.
  destruct (handle_held_once_spawned plain_host "engine" (Some ["exe"]) empty_world
              [OpSetPort 9000; OpStart (SpawnRaise Py.PermissionError);
               OpStop TermOk (WaitOk 0)]
              (init "engine") TermOk (WaitOk 0)) as (_ & _ & Hnone & _).
  exact (proj1 (Hnone eq_refl)).
Defined.

(** * Further properties of the life cycle *)

(** ** Helpers *)

Lemma start_calls (host : Host) (s : BackendPlugin) (w : World) (o : SpawnOutcome) :
  calls (snd (fst (start host o (s, w)))) =
  (calls w
   ++ (if call_reached o then [CallPopen (validatePluginCommand s)] else []))%list.
Proof.
  destruct o as [p|e|].
  - rewrite start_spawned. reflexivity.
  - rewrite start_raised. destruct (classify e); reflexivity.
  - rewrite start_unreached. simpl. now rewrite app_nil_r.
Qed.

Lemma validate_appends (s : BackendPlugin) (t : list string) :
  plugin_command s = Some t -> t <> [] -> ~ In "--port" t ->
  validatePluginCommand s
  = (t ++ ["--address"; plugin_address s; "--port"; Py.str (port s)])%list.
Proof.
  unfold validatePluginCommand, getAddress.
  intros -> Hne Hnot. apply contains_not_In in Hnot. rewrite Hnot.
  destruct t; [congruence|reflexivity].
Qed.

Lemma validate_keeps (s : BackendPlugin) (t : list string) :
  plugin_command s = Some t -> In "--port" t -> validatePluginCommand s = t.
Proof.
  unfold validatePluginCommand. intros -> Hin.
  apply contains_In in Hin. rewrite Hin, orb_true_r.
  destruct t; [discriminate Hin|reflexivity].
Qed.

(** ** A successful [start] *)

(** X1.  When the spawn succeeds, [start] returns [True], stores a handle
    of the new process, started with the validated command and with no exit
    status yet, sets [is_running], leaves the port, the address, the
    command, the slots and the identifier alone, makes the one [Popen]
    call, logs the one starting line with the identifier and the command,
    and shows no message. *)
Theorem start_success
    (host : Host) (s : BackendPlugin) (w : World) (p : positive) :
  exists s' w',
    start host (SpawnOk p) (s, w) = ((s', w'), Returned true)
    /\ process s' = Some (mkPopen p (validatePluginCommand s) None)
    /\ isRunning s' = true
    /\ getPort s' = getPort s
    /\ getAddress s' = getAddress s
    /\ plugin_command s' = plugin_command s
    /\ getSupportedSlots s' = getSupportedSlots s
    /\ plugin_id s' = plugin_id s
    /\ calls w' = (calls w ++ [CallPopen (validatePluginCommand s)])%list
    /\ log w' = (log w ++ [starting_line host s])%list
    /\ log_level (starting_line host s) = "i"
    /\ log_text (starting_line host s) =
         "Starting backend_plugin [" ++ plugin_id s ++ "] with command: "
         ++ str_of_list host (validatePluginCommand s)
    /\ notifications w' = notifications w.
Proof.
  eexists. eexists.
  split; [apply start_spawned|].
  repeat (split; [reflexivity|]). reflexivity.
Qed.

(** X2.  The port given to [setPort] is the one the process is started
    with: on a template that is not empty and has no [--port] token, a
    [start] after [setPort p] that reaches its [Popen] call makes it once,
    with the template followed by [--address], the address, [--port] and
    [p] in decimal, whatever the port was before and whether [Popen] then
    gives a process or raises.  Where the creation flag is missing the
    call is not reached, and [start] calls nothing. *)
Theorem setPort_then_start
    (host : Host) (s : BackendPlugin) (w : World) (t : list string)
    (p : Z) (o : SpawnOutcome) :
  plugin_command s = Some t ->
  t <> [] ->
  ~ In "--port" t ->
  calls (snd (fst (start host o (setPort p s, w)))) =
    (calls w
     ++ (if call_reached o
         then [CallPopen (t ++ ["--address"; getAddress s; "--port"; Py.str p])]
         else []))%list.
Proof.
  intros Ht Hne Hnot.
  rewrite start_calls.
  rewrite (validate_appends (setPort p s) t Ht Hne Hnot). reflexivity.
Qed.

Lemma setPort_then_start_witness :
  calls (snd (fst (start plain_host (SpawnOk 7)
                     (setPort 9000 (configured "engine" (Some ["exe"])), empty_world))))
  = [CallPopen ["exe"; "--address"; "127.0.0.1"; "--port"; "9000"]].
Proof.
  apply (setPort_then_start plain_host (configured "engine" (Some ["exe"]))
           empty_world ["exe"] 9000 (SpawnOk 7) eq_refl).
  - discriminate.
  - simpl. intros [H | []]. discriminate H.
Defined.

(** X3.  A second [start] without a [stop] in between spawns again and
    replaces the handle: the object then holds the second process only and
    is running, and the first process has been neither terminated nor
    waited for.  A [stop] after it terminates and reaps the second process
    alone. *)
Theorem start_twice_replaces_handle
    (host : Host) (s : BackendPlugin) (w : World) (p1 p2 : positive) (rc : Z) :
  exists s1 w1 s2 w2 s3 w3,
    start host (SpawnOk p1) (s, w) = ((s1, w1), Returned true)
    /\ start host (SpawnOk p2) (s1, w1) = ((s2, w2), Returned true)
    /\ process s2 = Some (mkPopen p2 (validatePluginCommand s) None)
    /\ isRunning s2 = true
    /\ calls w2 = (calls w ++ [CallPopen (validatePluginCommand s);
                               CallPopen (validatePluginCommand s)])%list
    /\ stop host TermOk (WaitOk rc) (s2, w2) = ((s3, w3), Returned true)
    /\ calls w3 = (calls w ++ [CallPopen (validatePluginCommand s);
                               CallPopen (validatePluginCommand s);
                               CallTerminate p2; CallWait p2])%list
    /\ process s3 = Some (mkPopen p2 (validatePluginCommand s) (Some rc))
    /\ isRunning s3 = false.
Proof.
  do 6 eexists.
  split; [apply start_spawned|].
  split; [apply start_spawned|].
  split; [reflexivity|]. split; [reflexivity|].
  split; [simpl; rewrite <- app_assoc; reflexivity|].
  split; [apply (stop_live host _ _ (mkPopen p2 (validatePluginCommand s) None) rc);
          reflexivity|].
  split; [simpl; rewrite <- !app_assoc; reflexivity|].
  split; reflexivity.
Qed.

(** X4.  A life cycle can be repeated: whatever handle the object holds,
    even one whose process has exited with another status, a successful
    [start] followed by a successful [stop] spawns, terminates and reaps
    the new process, reports the status of this process in the log and
    leaves the object stopped with the new handle. *)
Theorem start_then_stop
    (host : Host) (s : BackendPlugin) (w : World) (p : positive) (rc : Z) :
  exists s1 w1 s2 w2,
    start host (SpawnOk p) (s, w) = ((s1, w1), Returned true)
    /\ stop host TermOk (WaitOk rc) (s1, w1) = ((s2, w2), Returned true)
    /\ isRunning s1 = true
    /\ isRunning s2 = false
    /\ process s2 = Some (mkPopen p (validatePluginCommand s) (Some rc))
    /\ calls w2 = (calls w ++ [CallPopen (validatePluginCommand s);
                               CallTerminate p; CallWait p])%list
    /\ log w2 = (log w ++ [starting_line host s; stopped_line s rc])%list
    /\ notifications w2 = notifications w.
Proof.
  do 4 eexists.
  split; [apply start_spawned|].
  split; [apply (stop_live host _ _ (mkPopen p (validatePluginCommand s) None) rc);
          reflexivity|].
  split; [reflexivity|]. split; [reflexivity|]. split; [reflexivity|].
  split; [simpl; rewrite <- !app_assoc; reflexivity|].
  split; [simpl; rewrite <- !app_assoc; reflexivity|reflexivity].
Qed.

(** X5.  A spawn failure that is an [OSError] but no [PermissionError]
    (a missing executable, a blocking condition, any other refusal) is
    logged through [Logger.logException]: the line has level [e] and
    carries the stack trace. *)
Theorem start_failure_traced
    (host : Host) (s : BackendPlugin) (w : World) (e : Py.ExcClass) :
  Py.issubclass e Py.OSError = true ->
  Py.issubclass e Py.PermissionError = false ->
  exists k w',
    classify e = Some k
    /\ start host (SpawnRaise e) (s, w) = ((s, w'), Returned false)
    /\ log w' = (log w ++ [starting_line host s; failure_log k (plugin_id s)])%list
    /\ log_level (failure_log k (plugin_id s)) = "e"
    /\ log_trace (failure_log k (plugin_id s)) = true.
Proof.
  intros Hos Hperm.
  destruct (proj1 (classify_OSError e) Hos) as [k Hk].
  exists k. eexists.
  split; [exact Hk|].
  split; [rewrite start_raised, Hk; reflexivity|].
  split; [simpl; rewrite <- app_assoc; reflexivity|].
  split; [reflexivity|].
  destruct e; try discriminate Hos; try discriminate Hperm;
    cbv in Hk; injection Hk as <-; reflexivity.
Qed.

Lemma start_failure_traced_witness :
  exists w',
    start plain_host (SpawnRaise Py.FileNotFoundError) (init "engine", empty_world)
    = ((init "engine", w'), Returned false)
    /\ log w' =
       [starting_line plain_host (init "engine");
        mkLogEntry "e" true
          "Unable to find local EnginePlugin server executable for: engine"].
Proof.
  destruct (start_failure_traced plain_host (init "engine") empty_world
              Py.FileNotFoundError eq_refl eq_refl)
    as (k & w' & Hk & Hrun & Hlog & _ & _).
  exists w'. split; [exact Hrun|].
  rewrite Hlog. cbv in Hk. injection Hk as <-. reflexivity.
Defined.

(** ** Failures of [stop] *)

(** X6.  The answer of [stop] in every state.  Without a handle, or with a
    handle whose exit status has been collected, it is [True] whatever the
    operating system would say.  Otherwise a [PermissionError] raised by
    the terminate request, or by the wait after it, gives [False]; any
    other exception raised by either leaves [stop] unhandled; and [True]
    needs both to succeed. *)
Theorem stop_result
    (host : Host) (s : BackendPlugin) (w : World)
    (t : TermOutcome) (wo : WaitOutcome) :
  snd (stop host t wo (s, w)) =
  if settled s then Returned true else stop_answer t wo.
Proof.
  unfold settled.
  destruct (process s) as [h|] eqn:H.
  - destruct (returncode h) as [c|] eqn:Hrc.
    + rewrite (stop_exited host s w h c t wo H Hrc). reflexivity.
    + destruct t as [|e].
      * destruct wo as [rc|e|orc].
        -- rewrite (stop_live host s w h rc H Hrc). reflexivity.
        -- rewrite (stop_wait_raised host s w h e H Hrc). simpl.
           destruct (Py.issubclass e Py.PermissionError); reflexivity.
        -- rewrite (stop_wait_interrupted host s w h orc H Hrc). reflexivity.
      * rewrite (stop_terminate_raised host s w h e wo H Hrc).
        unfold stop_answer.
        destruct (Py.issubclass e Py.PermissionError); reflexivity.
  - rewrite (stop_no_handle host s w t wo H). reflexivity.
Qed.



(** ** Messages and return values *)

Lemma error_message_failure (host : Host) (k : StartFailure) (id : string) :
  error_message host (failure_notification host k id).
Proof. split; reflexivity. Qed.

Lemma error_message_denied (host : Host) (s : BackendPlugin) :
  error_message host (denied_notification host s).
Proof. split; reflexivity. Qed.

Lemma start_notifications (host : Host) (s : BackendPlugin) (w : World) (o : SpawnOutcome) :
  exists n,
    notifications (snd (fst (start host o (s, w)))) = (notifications w ++ n)%list
    /\ List.length n = (if failed (snd (start host o (s, w))) then 1 else 0)%nat
    /\ Forall (error_message host) n.
Proof.
  destruct o as [p|e|].
  - rewrite start_spawned. exists []. simpl. rewrite app_nil_r. auto.
  - rewrite start_raised. destruct (classify e) as [k|].
    + exists [failure_notification host k (plugin_id s)]. simpl.
      repeat split. constructor; [apply error_message_failure|constructor].
    + exists []. simpl. rewrite app_nil_r. auto.
  - rewrite start_unreached. exists []. simpl. rewrite app_nil_r. auto.
Qed.

Lemma stop_notifications (host : Host) (s : BackendPlugin) (w : World)
    (t : TermOutcome) (wo : WaitOutcome) :
  exists n,
    notifications (snd (fst (stop host t wo (s, w)))) = (notifications w ++ n)%list
    /\ List.length n = (if failed (snd (stop host t wo (s, w))) then 1 else 0)%nat
    /\ Forall (error_message host) n.
Proof.
  assert (exists n : list Message,
             notifications w = (notifications w ++ n)%list
             /\ List.length n = 0%nat /\ Forall (error_message host) n) as Hnone
    by (exists []; rewrite app_nil_r; auto).
  assert (exists n : list Message,
             (notifications w ++ [denied_notification host s])%list
             = (notifications w ++ n)%list
             /\ List.length n = 1%nat /\ Forall (error_message host) n) as Hone.
  { exists [denied_notification host s]. repeat split.
    constructor; [apply error_message_denied|constructor]. }
  destruct (process s) as [h|] eqn:H.
  - destruct (returncode h) as [c|] eqn:Hrc.
    + rewrite (stop_exited host s w h c t wo H Hrc). exact Hnone.
    + destruct t as [|e].
      * destruct wo as [rc|e|orc].
        -- rewrite (stop_live host s w h rc H Hrc). exact Hnone.
        -- rewrite (stop_wait_raised host s w h e H Hrc).
           destruct (Py.issubclass e Py.PermissionError); [exact Hone|exact Hnone].
        -- rewrite (stop_wait_interrupted host s w h orc H Hrc). exact Hnone.
      * rewrite (stop_terminate_raised host s w h e wo H Hrc).
        destruct (Py.issubclass e Py.PermissionError); [exact Hone|exact Hnone].
  - rewrite (stop_no_handle host s w t wo H). exact Hnone.
Qed.

(** X8.  A message is shown exactly when a call returns [False]: [start]
    and [stop] keep the messages shown before, add exactly one when they
    return [False] and none when they return [True] or let an exception
    through; and the one they add is of type [ERROR], under the title of
    the class. *)
Theorem message_iff_False
    (host : Host) (s : BackendPlugin) (w : World)
    (o : SpawnOutcome) (t : TermOutcome) (wo : WaitOutcome) :
  (exists n,
      notifications (snd (fst (start host o (s, w)))) = (notifications w ++ n)%list
      /\ List.length n = (if failed (snd (start host o (s, w))) then 1 else 0)%nat
      /\ Forall (error_message host) n)
  /\ (exists n,
      notifications (snd (fst (stop host t wo (s, w)))) = (notifications w ++ n)%list
      /\ List.length n = (if failed (snd (stop host t wo (s, w))) then 1 else 0)%nat
      /\ Forall (error_message host) n).
Proof.
  split; [apply start_notifications|apply stop_notifications].
Qed.

(** ** The world along sequences of calls *)

Lemma grown_refl (host : Host) (w : World) : grown host 0 0 w w.
Proof.
  exists [], [], []. rewrite !app_nil_r. repeat split; auto.
Qed.

Lemma grown_trans (host : Host) (b1 b2 k1 k2 : nat) (w1 w2 w3 : World) :
  grown host b1 k1 w1 w2 -> grown host b2 k2 w2 w3 ->
  grown host (b1 + b2) (k1 + k2) w1 w3.
Proof.
  intros (l1 & n1 & c1 & Hl1 & Hn1 & Hc1 & He1 & Hb1 & Hk1 & Hs1)
         (l2 & n2 & c2 & Hl2 & Hn2 & Hc2 & He2 & Hb2 & Hk2 & Hs2).
  exists (l1 ++ l2)%list, (n1 ++ n2)%list, (c1 ++ c2)%list.
  rewrite Hl2, Hl1, Hn2, Hn1, Hc2, Hc1, <- !app_assoc.
  repeat split.
  - apply Forall_app. split; assumption.
  - rewrite length_app. lia.
  - rewrite existsb_app, Hk1, Hk2. reflexivity.
  - rewrite filter_app, length_app. lia.
Qed.

(** Builds [grown] from a world written with [add_log], [add_notification]
    and [add_call]. *)
Ltac show_grown l n k :=
  exists l, n, k; simpl; rewrite <- ?app_assoc, ?app_nil_r;
  repeat split; auto;
  repeat constructor; auto using error_message_failure, error_message_denied.

Lemma start_grown (host : Host) (s : BackendPlugin) (w : World) (o : SpawnOutcome) :
  grown host 1 (if call_reached o then 1 else 0) w (snd (fst (start host o (s, w)))).
Proof.
  destruct o as [p|e|];
    [| |rewrite start_unreached;
        show_grown [starting_line host s] (@nil Message) (@nil PrimCall)].
  - rewrite start_spawned.
    show_grown [starting_line host s] (@nil Message)
               [CallPopen (validatePluginCommand s)].
  - rewrite start_raised. destruct (classify e) as [k|].
    + show_grown [starting_line host s; failure_log k (plugin_id s)]
                 [failure_notification host k (plugin_id s)]
                 [CallPopen (validatePluginCommand s)].
    + show_grown [starting_line host s] (@nil Message)
                 [CallPopen (validatePluginCommand s)].
Qed.

Lemma stop_grown (host : Host) (s : BackendPlugin) (w : World)
    (t : TermOutcome) (wo : WaitOutcome) :
  grown host 1 0 w (snd (fst (stop host t wo (s, w)))).
Proof.
  destruct (process s) as [h|] eqn:H.
  - destruct (returncode h) as [c|] eqn:Hrc.
    + rewrite (stop_exited host s w h c t wo H Hrc).
      show_grown [stopped_line s c] (@nil Message)
                 [CallTerminate (pid h); CallWait (pid h)].
    + destruct t as [|e].
      * destruct wo as [rc|e|orc].
        -- rewrite (stop_live host s w h rc H Hrc).
           show_grown [stopped_line s rc] (@nil Message)
                      [CallTerminate (pid h); CallWait (pid h)].
        -- rewrite (stop_wait_raised host s w h e H Hrc).
           destruct (Py.issubclass e Py.PermissionError).
           ++ show_grown [denied_line s] [denied_notification host s]
                         [CallTerminate (pid h); CallWait (pid h)].
           ++ show_grown (@nil LogEntry) (@nil Message)
                         [CallTerminate (pid h); CallWait (pid h)].
        -- rewrite (stop_wait_interrupted host s w h orc H Hrc).
           show_grown (@nil LogEntry) (@nil Message)
                      [CallTerminate (pid h); CallWait (pid h)].
      * rewrite (stop_terminate_raised host s w h e wo H Hrc).
        destruct (Py.issubclass e Py.PermissionError).
        -- show_grown [denied_line s] [denied_notification host s]
                      [CallTerminate (pid h)].
        -- show_grown (@nil LogEntry) (@nil Message) [CallTerminate (pid h)].
  - rewrite (stop_no_handle host s w t wo H).
    show_grown (@nil LogEntry) (@nil Message) (@nil PrimCall).
Qed.

Lemma step_grown (host : Host) (c : Op) (s : BackendPlugin) (w : World) :
  grown host (if is_action c then 1 else 0) (if is_spawning_start c then 1 else 0)
    w (snd (step host c (s, w))).
Proof.
  destruct c as [p| | | | |o|t wo]; simpl;
    try apply grown_refl; [apply start_grown|apply stop_grown].
Qed.

Lemma run_grown (host : Host) (cs : list Op) (s : BackendPlugin) (w : World) :
  grown host (List.length (filter is_action cs))
    (List.length (filter is_spawning_start cs))
    w (snd (run host cs (s, w))).
Proof.
  revert s w. induction cs as [|c cs IH]; intros s w; simpl.
  - apply grown_refl.
  - pose proof (step_grown host c s w) as Hstep.
    destruct (step host c (s, w)) as [s1 w1]. simpl in Hstep.
    pose proof (grown_trans host _ _ _ _ w w1 _ Hstep (IH s1 w1)) as Hrun.
    destruct c as [p| | | | |o|t wo]; simpl in *; try exact Hrun.
    destruct (call_reached o); exact Hrun.
Qed.

(** X9.  Over any sequence of calls, with any answers of the operating
    system, nothing recorded is lost: the log and the messages of before
    are kept in front of what is added.  Every message added is of type
    [ERROR] under the title of the class, and there are at most as many
    of them as calls of [start] and [stop]. *)
Theorem messages_are_errors
    (host : Host) (cs : list Op) (s : BackendPlugin) (w : World) :
  exists l n,
    log (snd (run host cs (s, w))) = (log w ++ l)%list
    /\ notifications (snd (run host cs (s, w))) = (notifications w ++ n)%list
    /\ Forall (error_message host) n
    /\ (List.length n <= List.length (filter is_action cs))%nat.
Proof.
  destruct (run_grown host cs s w) as (l & n & k & Hl & Hn & _ & He & Hlen & _).
  exists l, n. auto.
Qed.

(** X10.  Over any sequence of calls the class never calls [kill], and it
    calls [Popen] exactly once for each call of [start] that reaches the
    call, whether [Popen] then gives a process or raises: a failed spawn is
    not tried again.  A [start] stopped by the missing creation flag before
    the call, [stop], [setPort] and the getters spawn nothing. *)
Theorem one_spawn_per_start
    (host : Host) (cs : list Op) (s : BackendPlugin) (w : World) :
  exists k,
    calls (snd (run host cs (s, w))) = (calls w ++ k)%list
    /\ existsb is_kill k = false
    /\ List.length (filter is_spawn k)
       = List.length (filter is_spawning_start cs).
Proof.
  destruct (run_grown host cs s w) as (l & n & k & _ & _ & Hc & _ & _ & Hk & Hs).
  exists k. auto.
Qed.

(** ** What no call changes *)

Lemma step_config (host : Host) (c : Op) (st : St) :
  plugin_id (fst (step host c st)) = plugin_id (fst st)
  /\ plugin_address (fst (step host c st)) = plugin_address (fst st)
  /\ plugin_command (fst (step host c st)) = plugin_command (fst st)
  /\ supported_slots (fst (step host c st)) = supported_slots (fst st).
Proof.
  destruct st as [s w].
  destruct c as [p| | | | |o|t wo]; simpl; auto.
  - rewrite start_object. destruct o; auto.
  - destruct (stop_object host t wo s w) as (b & h' & -> & _). auto.
Qed.

Lemma validate_fields (s1 s2 : BackendPlugin) :
  plugin_command s1 = plugin_command s2 ->
  plugin_address s1 = plugin_address s2 ->
  port s1 = port s2 ->
  validatePluginCommand s1 = validatePluginCommand s2.
Proof.
  unfold validatePluginCommand, getAddress. intros -> -> ->. reflexivity.
Qed.

(** X11.  No call of the interface changes the identifier, the address,
    the command template or the supported slots: after any sequence of
    calls the getters answer as before it.  So the command a later [start]
    launches depends on the calls made only through the last [setPort]. *)
Theorem configuration_is_kept
    (host : Host) (cs : list Op) (s : BackendPlugin) (w : World) :
  plugin_id (fst (run host cs (s, w))) = plugin_id s
  /\ getAddress (fst (run host cs (s, w))) = getAddress s
  /\ plugin_command (fst (run host cs (s, w))) = plugin_command s
  /\ getSupportedSlots (fst (run host cs (s, w))) = getSupportedSlots s
  /\ validatePluginCommand (fst (run host cs (s, w)))
     = validatePluginCommand (setPort (last_port cs (port s)) s).
Proof.
  assert (forall st,
             plugin_id (fst (run host cs st)) = plugin_id (fst st)
             /\ plugin_address (fst (run host cs st)) = plugin_address (fst st)
             /\ plugin_command (fst (run host cs st)) = plugin_command (fst st)
             /\ supported_slots (fst (run host cs st)) = supported_slots (fst st)
             /\ port (fst (run host cs st)) = last_port cs (port (fst st))) as Hrun.
  { induction cs as [|c cs IH]; intros st; simpl; [auto|].
    destruct (IH (step host c st)) as (Hi & Ha & Hc & Hs & Hp).
    destruct (step_config host c st) as (Hi1 & Ha1 & Hc1 & Hs1).
    rewrite Hi, Ha, Hc, Hs, Hp, Hi1, Ha1, Hc1, Hs1, step_port.
    repeat split. destruct c; reflexivity. }
  destruct (Hrun (s, w)) as (Hi & Ha & Hc & Hs & Hp). simpl in *.
  unfold getAddress, getSupportedSlots.
  repeat split; auto.
  apply validate_fields; simpl; auto.
Qed.

(** ** More on the command validator *)

Lemma str_decodes (z : Z) :
  NilZero.int_of_string (Py.str z) = Some (Z.to_int z).
Proof.
  unfold Py.str. apply NilZero.isi.
  - destruct z; simpl; try discriminate.
    intros [= H]. exact (DecimalPos.Unsigned.to_uint_nonnil _ H).
  - destruct z; simpl; try discriminate.
    intros [= H]. exact (DecimalPos.Unsigned.to_uint_nonnil _ H).
Qed.

Lemma str_injective (p q : Z) : Py.str p = Py.str q -> p = q.
Proof.
  intros Heq.
  pose proof (str_decodes p) as Hp. rewrite Heq, str_decodes in Hp.
  injection Hp as Hp.
  rewrite <- (DecimalZ.of_to p), <- (DecimalZ.of_to q), Hp. reflexivity.
Qed.

Lemma str_not_flag (z : Z) : Py.str z <> "--port".
Proof.
  intros Heq. pose proof (str_decodes z) as Hz.
  rewrite Heq in Hz. discriminate Hz.
Qed.

(** X12.  Validating is idempotent: an object whose template is an
    already validated command gets that command back unchanged, so the
    address and the port are never appended twice. *)
Theorem validate_idempotent (s : BackendPlugin) :
  validatePluginCommand (with_command (Some (validatePluginCommand s)) s)
  = validatePluginCommand s.
Proof.
  destruct (plugin_command s) as [t|] eqn:Ht.
  - destruct t as [|x t].
    + assert (validatePluginCommand s = []) as ->
        by (unfold validatePluginCommand; rewrite Ht; reflexivity).
      reflexivity.
    + destruct (Py.contains "--port" (x :: t)) eqn:Hc.
      * apply contains_In in Hc.
        rewrite (validate_keeps s (x :: t) Ht Hc).
        apply validate_keeps; [reflexivity|exact Hc].
      * apply contains_not_In in Hc.
        rewrite (validate_appends s (x :: t) Ht ltac:(discriminate) Hc).
        apply validate_keeps; [reflexivity|].
        apply in_or_app. right. simpl. auto.
  - assert (validatePluginCommand s = []) as ->
      by (unfold validatePluginCommand; rewrite Ht; reflexivity).
    reflexivity.
Qed.

(** X13.  On a template that is not empty the validated command starts
    with the whole template, in order, and holds the token [--port].  When
    the template had no such token and the address is not that token
    itself, the validated command holds it exactly once. *)
Theorem validate_has_port_flag (s : BackendPlugin) (t : list string) :
  plugin_command s = Some t ->
  t <> [] ->
  In "--port" (validatePluginCommand s)
  /\ (exists rest, validatePluginCommand s = (t ++ rest)%list)
  /\ (~ In "--port" t -> getAddress s <> "--port" ->
      count_occ string_dec (validatePluginCommand s) "--port" = 1%nat).
Proof.
  intros Ht Hne.
  destruct (Py.contains "--port" t) eqn:Hc.
  - apply contains_In in Hc. rewrite (validate_keeps s t Ht Hc).
    split; [exact Hc|]. split; [exists []; now rewrite app_nil_r|].
    intros Hnot. contradiction.
  - apply contains_not_In in Hc. rewrite (validate_appends s t Ht Hne Hc).
    split; [apply in_or_app; right; simpl; auto|].
    split; [eexists; reflexivity|].
    intros _ Haddr. unfold getAddress in Haddr.
    rewrite count_occ_app.
    rewrite (proj1 (count_occ_not_In string_dec t "--port") Hc). simpl.
    destruct (string_dec (plugin_address s) "--port") as [Heq|_];
      [contradiction|].
    destruct (string_dec (Py.str (port s)) "--port") as [Heq|_];
      [destruct (str_not_flag _ Heq)|reflexivity].
Qed.

Lemma validate_has_port_flag_witness :
  count_occ string_dec
    (validatePluginCommand (configured "engine" (Some ["exe"; "-v"]))) "--port"
  = 1%nat.
Proof.
  destruct (validate_has_port_flag (configured "engine" (Some ["exe"; "-v"]))
              ["exe"; "-v"] eq_refl ltac:(discriminate)) as (_ & _ & Hcount).
  apply Hcount.
  - simpl. intros [H | [H | []]]; discriminate H.
  - discriminate.
Defined.

(** X14.  The validated command tells the endpoint: for one template, not
    empty and without [--port], two objects get the same command only if
    they have the same address and the same port; no two integers, zero
    and negative ones included, are written alike. *)
Theorem validate_tells_endpoint (s1 s2 : BackendPlugin) (t : list string) :
  plugin_command s1 = Some t ->
  plugin_command s2 = Some t ->
  t <> [] ->
  ~ In "--port" t ->
  validatePluginCommand s1 = validatePluginCommand s2 ->
  getAddress s1 = getAddress s2 /\ getPort s1 = getPort s2.
Proof.
  intros H1 H2 Hne Hnot Heq.
  rewrite (validate_appends s1 t H1 Hne Hnot),
          (validate_appends s2 t H2 Hne Hnot) in Heq.
  apply app_inv_head in Heq. injection Heq as Ha Hp.
  split; [exact Ha|apply str_injective, Hp].
Qed.

Lemma validate_tells_endpoint_witness :
  getPort (setPort (-1) (configured "engine" (Some ["exe"])))
  = getPort (with_is_running true (setPort (-1) (configured "engine" (Some ["exe"])))).
Proof.
  apply (validate_tells_endpoint
           (setPort (-1) (configured "engine" (Some ["exe"])))
           (with_is_running true (setPort (-1) (configured "engine" (Some ["exe"]))))
           ["exe"] eq_refl eq_refl).
  - discriminate.
  - simpl. intros [H | []]. discriminate H.
  - reflexivity.
Defined.

(** ** Stopping again *)

(** X15.  Once [stop] has reaped a process, a further [stop] asks the
    operating system nothing: whatever it would answer, the call returns
    [True], leaves the object as the first [stop] left it, logs the line
    of the first [stop] again, with the same exit status, and shows no
    message. *)
Theorem stop_again_repeats_status
    (host : Host) (s : BackendPlugin) (w : World) (h : Popen) (rc : Z)
    (t : TermOutcome) (wo : WaitOutcome) :
  process s = Some h ->
  returncode h = None ->
  exists s1 w1 w2,
    stop host TermOk (WaitOk rc) (s, w) = ((s1, w1), Returned true)
    /\ stop host t wo (s1, w1) = ((s1, w2), Returned true)
    /\ process s1 = Some (mkPopen (pid h) (args h) (Some rc))
    /\ log w2 = (log w ++ [stopped_line s rc; stopped_line s rc])%list
    /\ notifications w2 = notifications w
    /\ calls w2 = (calls w ++ [CallTerminate (pid h); CallWait (pid h);
                               CallTerminate (pid h); CallWait (pid h)])%list.
Proof.
  intros H Hrc. do 3 eexists.
  split; [apply (stop_live host s w h rc H Hrc)|].
  split.
  { rewrite (stop_exited host (with_is_running false (reaped h rc s)) _
               (mkPopen (pid h) (args h) (Some rc)) rc t wo eq_refl eq_refl).
    reflexivity. }
  split; [reflexivity|].
  split; [simpl; rewrite <- !app_assoc; reflexivity|].
  split; [reflexivity|].
  simpl; rewrite <- !app_assoc; reflexivity.
Qed.

Lemma stop_again_repeats_status_witness :
  exists s1 w1 w2,
    stop plain_host TermOk (WaitOk 3) running_engine = ((s1, w1), Returned true)
    /\ stop plain_host (TermRaise Py.PermissionError) (WaitOk 0) (s1, w1)
       = ((s1, w2), Returned true)
    /\ log w2 = (log (snd running_engine)
                 ++ [stopped_line (fst running_engine) 3;
                     stopped_line (fst running_engine) 3])%list.
Proof.
  destruct (stop_again_repeats_status plain_host (fst running_engine)
              (snd running_engine)
              (mkPopen 7 ["exe"; "--address"; "127.0.0.1"; "--port"; "0"] None) 3
              (TermRaise Py.PermissionError) (WaitOk 0) eq_refl eq_refl)
    as (s1 & w1 & w2 & H1 & H2 & _ & Hlog & _).
  exists s1, w1, w2. auto.
Defined.

(** ** A [start] that does not succeed *)

(** X16.  A [start] that does not return [True] changes nothing in the
    object, also when the exception is one that no [except] clause takes
    and that leaves [start]: the handle, [is_running] and every other
    field are those of before the call.  In that last case no message is
    shown and nothing but the starting line is logged. *)
Theorem start_failure_keeps_object
    (host : Host) (s : BackendPlugin) (w : World) (o : SpawnOutcome) :
  snd (start host o (s, w)) <> Returned true ->
  fst (fst (start host o (s, w))) = s
  /\ (forall e, snd (start host o (s, w)) = Raised e ->
      notifications (snd (fst (start host o (s, w)))) = notifications w
      /\ log (snd (fst (start host o (s, w)))) = (log w ++ [starting_line host s])%list).
Proof.
  destruct o as [p|e|].
  - rewrite start_spawned. simpl. congruence.
  - rewrite start_raised. destruct (classify e) as [k|]; simpl.
    + intros _. split; [reflexivity|]. intros e' He'. discriminate He'.
    + intros _. split; [reflexivity|]. intros e' _. split; reflexivity.
  - rewrite start_unreached. simpl.
    intros _. split; [reflexivity|]. intros e' _. split; reflexivity.
Qed.

Lemma start_failure_keeps_object_witness :
  fst (fst (start plain_host NoWindowFlag running_engine))
  = fst running_engine
  /\ notifications (snd (fst (start plain_host NoWindowFlag running_engine)))
     = notifications (snd running_engine).
Proof.
  destruct (start_failure_keeps_object plain_host (fst running_engine)
              (snd running_engine) NoWindowFlag
              ltac:(discriminate)) as [Hsame Hquiet].
  split; [exact Hsame|].
  exact (proj1 (Hquiet Py.AttributeError eq_refl)).
Defined.
